(** * catalog/views.py of django_local_library: a shallow embedding

  The request handlers of [catalog/views.py] are embedded as functions over
  an explicit store (the database tables and the session dictionary).  The
  Django pieces the handlers call (decorators, mixins, ORM look-ups,
  [get_object_or_404]) are written out with the behaviour the framework
  documents for them. *)

From Stdlib Require Import ZArith String Ascii List Lia Sorted Permutation.
From stdpp Require Import base option gmap strings list sorting.

Local Open Scope Z_scope.

(** ** Dates

  A [datetime.date] is identified with its proleptic Gregorian ordinal
  ([date.toordinal()]), which runs from 1 (0001-01-01) to [MAXORDINAL]
  (9999-12-31); comparison of dates is comparison of ordinals. *)
Module Datetime.

Definition date := Z.

(** [date.max.toordinal()] *)
Definition MAXORDINAL : Z := 3652059.

(** [datetime.timedelta(weeks=w)], in days. *)
Definition timedelta_weeks (w : Z) : Z := 7 * w.

(** [d + timedelta(days=delta)]: the date with ordinal [d + delta] when that
    is the ordinal of a date; [None] is the [OverflowError] that
    [date.__add__] raises otherwise. *)
Definition date_add (d : date) (delta : Z) : option date :=
  let o := d + delta in
  if (0 <? o) && (o <=? MAXORDINAL) then Some o else None.

(** [(a - b).days] *)
Definition date_sub (a b : date) : Z := a - b.

(** [a < b] on dates. *)
Definition date_lt (a b : date) : bool := a <? b.

(** [date(y, m, d).toordinal()], as CPython's [_ymd2ord] computes it; used
    by the ISO parser below to build concrete dates. *)
Definition is_leap (y : Z) : bool :=
  (y mod 4 =? 0) && (negb (y mod 100 =? 0) || (y mod 400 =? 0)).

Definition days_in_month (y m : Z) : Z :=
  if m =? 2 then (if is_leap y then 29 else 28)
  else if (m =? 4) || (m =? 6) || (m =? 9) || (m =? 11) then 30 else 31.

Definition days_before_year (y : Z) : Z :=
  let y' := y - 1 in y' * 365 + y' / 4 - y' / 100 + y' / 400.

Fixpoint days_before_month_aux (y : Z) (n : nat) : Z :=
  match n with
  | O => 0
  | S k => days_before_month_aux y k + days_in_month y (Z.of_nat (S k))
  end.

Definition days_before_month (y m : Z) : Z :=
  days_before_month_aux y (Z.to_nat (m - 1)).

Definition ymd2ord (y m d : Z) : option date :=
  if (1 <=? y) && (y <=? 9999) && (1 <=? m) && (m <=? 12)
     && (1 <=? d) && (d <=? days_in_month y m)
  then Some (days_before_year y + days_before_month y m + d)
  else None.

End Datetime.
Export Datetime.

(** ** Strings: [str.lower] and substring search *)
Module Str.

(** [c.lower()] for an ASCII character. *)
Definition lower_ascii (c : ascii) : ascii :=
  let n := nat_of_ascii c in
  if ((65 <=? n) && (n <=? 90))%nat then ascii_of_nat (n + 32) else c.

(** [s.lower()] *)
Fixpoint lower (s : string) : string :=
  match s with
  | EmptyString => EmptyString
  | String c r => String (lower_ascii c) (lower r)
  end.

(** [hay.startswith(needle)] *)
Fixpoint startswith (needle hay : string) : bool :=
  match needle, hay with
  | EmptyString, _ => true
  | String _ _, EmptyString => false
  | String a n', String b h' => Ascii.eqb a b && startswith n' h'
  end.

(** [needle in hay], comparing characters exactly. *)
Fixpoint contains (needle hay : string) : bool :=
  startswith needle hay ||
  match hay with
  | EmptyString => false
  | String _ h' => contains needle h'
  end.

(** The same test after folding both sides to lower case. *)
Definition icontains (needle hay : string) : bool :=
  contains (lower needle) (lower hay).

End Str.

(** ** Callers and permissions ([django.contrib.auth]) *)
Module Auth.

Record User := {
  user_id : Z;
  is_active : bool;
  is_superuser : bool;
  (** every permission of the user, own and through groups *)
  all_permissions : gset string
}.

(** [request.user] *)
Inductive Caller :=
| AnonymousUser
| LoggedIn (u : User).

Definition is_authenticated (c : Caller) : bool :=
  match c with
  | AnonymousUser => false
  | LoggedIn _ => true
  end.

(** [user.has_perm(perm)] with the default [ModelBackend]: an active
    superuser holds every permission, an inactive user and the anonymous
    user hold none. *)
Definition has_perm (c : Caller) (perm : string) : bool :=
  match c with
  | AnonymousUser => false
  | LoggedIn u =>
      is_active u && (is_superuser u || bool_decide (perm ∈ all_permissions u))
  end.

End Auth.
Export Auth.

(** ** The catalog models and the store *)
Module Models.

(** Modelled from the spec: [catalog/models.py] is not part of the sources
    at hand; the entities and fields are those of the spec's data model
    (section 3), the one-letter status codes those the views filter on. *)
Inductive LoanStatus := Maintenance | OnLoan | Available | Reserved.

(** The value stored in the [status] column. *)
Definition status_code (s : LoanStatus) : string :=
  match s with
  | Maintenance => "m"
  | OnLoan => "o"
  | Available => "a"
  | Reserved => "r"
  end.

Record Author := {
  first_name : string;
  last_name : string;
  date_of_birth : option date;
  date_of_death : option date
}.

Record Genre := { genre_name : string }.
Record Language := { language_name : string }.

Record Book := {
  title : string;
  author : option Z;
  summary : string;
  isbn : string;
  genre : list Z;
  language : option Z
}.

Record BookInstance := {
  book : option Z;
  imprint : string;
  due_back : option date;
  status : LoanStatus;
  borrower : option Z
}.

(** [book_instance.due_back = d] on the in-memory object. *)
Definition set_due_back (d : date) (bi : BookInstance) : BookInstance :=
  {| book := book bi; imprint := imprint bi; due_back := Some d;
     status := status bi; borrower := borrower bi |}.

(** One table per model, keyed by primary key. *)
Record Database := {
  tbl_book : gmap Z Book;
  tbl_author : gmap Z Author;
  tbl_bookinstance : gmap Z BookInstance;
  tbl_genre : gmap Z Genre;
  tbl_language : gmap Z Language
}.

(** [book_instance.save()] for the row with primary key [pk]. *)
Definition save_bookinstance (pk : Z) (bi : BookInstance) (d : Database)
  : Database :=
  {| tbl_book := tbl_book d; tbl_author := tbl_author d;
     tbl_bookinstance := <[pk := bi]> (tbl_bookinstance d);
     tbl_genre := tbl_genre d; tbl_language := tbl_language d |}.

Global Instance LoanStatus_eq_dec : EqDecision LoanStatus.
Proof. solve_decision. Defined.

End Models.
Export Models.

(** ** Query sets ([Model.objects]) *)
Module ORM.

(** What the views' queries leave to the database backend: whether LIKE
    compares case-sensitively (it does not on SQLite, where [contains]
    behaves as [icontains]; it does on PostgreSQL, MySQL and Oracle), and
    where an ascending ORDER BY puts NULL. *)
Record Backend := {
  like_case_sensitive : bool;
  nulls_first : bool
}.

Definition sqlite : Backend :=
  {| like_case_sensitive := false; nulls_first := true |}.
Definition postgresql : Backend :=
  {| like_case_sensitive := true; nulls_first := false |}.
Definition mysql : Backend :=
  {| like_case_sensitive := true; nulls_first := true |}.

(** A query set: the selected rows with their primary keys, in order. *)
Definition QuerySet (R : Type) := list (Z * R).

Definition objects_all {R} (tbl : gmap Z R) : QuerySet R := map_to_list tbl.

Definition qs_filter {R} (p : R → bool) (qs : QuerySet R) : QuerySet R :=
  List.filter (λ kr, p kr.2) qs.

Definition qs_count {R} (qs : QuerySet R) : Z := Z.of_nat (length qs).

(** The look-ups the views use. *)
Definition status__exact (code : string) (bi : BookInstance) : bool :=
  String.eqb (status_code (status bi)) code.

Definition borrower__exact (u : User) (bi : BookInstance) : bool :=
  bool_decide (borrower bi = Some (user_id u)).

Definition title__contains (B : Backend) (needle : string) (b : Book) : bool :=
  if like_case_sensitive B then Str.contains needle (title b)
  else Str.icontains needle (title b).

(** Ascending order on a nullable date column. *)
Definition null_le (nf : bool) (a b : option date) : bool :=
  match a, b with
  | None, None => true
  | None, Some _ => nf
  | Some _, None => negb nf
  | Some x, Some y => x <=? y
  end.

Definition due_back_le (B : Backend) (x y : Z * BookInstance) : Prop :=
  Is_true (null_le (nulls_first B) (due_back x.2) (due_back y.2)).

Global Instance due_back_le_dec B x y : Decision (due_back_le B x y).
Proof. unfold due_back_le. apply _. Defined.

(** [.order_by('due_back')] *)
Definition order_by_due_back (B : Backend) (qs : QuerySet BookInstance)
  : QuerySet BookInstance :=
  merge_sort (due_back_le B) qs.

(** [Paginator(qs, per_page).page(number).object_list]; [None] is
    [InvalidPage].  Page 1 of an empty query set is allowed. *)
Definition num_pages {R} (per_page : nat) (qs : QuerySet R) : nat :=
  Nat.max 1 ((length qs + per_page - 1) / per_page)%nat.

Definition paginator_page {R} (per_page : nat) (qs : QuerySet R) (number : nat)
  : option (QuerySet R) :=
  if ((1 <=? number) && (number <=? num_pages per_page qs))%nat
  then Some (take per_page (drop ((number - 1) * per_page)%nat qs))
  else None.

End ORM.
Export ORM.

(** ** Requests, responses and the handlers' effects *)
Module Http.

(** The exceptions a handler can leave through; the framework turns
    [Http404] into the "not found" page and [PermissionDenied] into the 403
    page, the other two are not handled. *)
Inductive Exn := Http404 | PermissionDenied | KeyError | OverflowError.

(** URLs are kept symbolic: the URL configuration is not part of the sources
    at hand. *)
Inductive Url :=
| reverse (view_name : string)
| LOGIN_URL.

(** What a request can read and write: the tables and the caller's session. *)
Record State := {
  db : Database;
  session : gmap string Z
}.

Inductive Outcome (A : Type) :=
| Returned (a : A)
| Raised (e : Exn).
Global Arguments Returned {A} a.
Global Arguments Raised {A} e.

(** A computation that reads and writes the state and may raise. *)
Definition View (A : Type) : Type := State → Outcome A * State.

Global Instance View_ret : MRet View := λ A a s, (Returned a, s).

Global Instance View_bind : MBind View := λ A B f m s,
  match m s with
  | (Returned a, s') => f a s'
  | (Raised e, s') => (Raised e, s')
  end.

Global Instance View_throw : MThrow Exn View := λ A e s, (Raised e, s).

Definition get_state : View State := λ s, (Returned s, s).

(** The value of an operation that raises [e] when it has none. *)
Definition or_raise {A} (e : Exn) (o : option A) : View A :=
  match o with
  | Some a => mret a
  | None => mthrow e
  end.

Definition write_db (f : Database → Database) : View unit :=
  λ s, (Returned tt, {| db := f (db s); session := session s |}).

(** [request.session[key] = v] *)
Definition session_set (key : string) (v : Z) : View unit :=
  λ s, (Returned tt, {| db := db s; session := <[key := v]> (session s) |}).

(** [request.session.get(key, dflt)] *)
Definition session_get (key : string) (dflt : Z) : View Z :=
  λ s, (Returned (default dflt (session s !! key)), s).

(** [get_object_or_404(Model, pk=pk)] *)
Definition get_object_or_404 {R} (tbl : Database → gmap Z R) (pk : Z) : View R :=
  λ s, match tbl (db s) !! pk with
       | Some r => (Returned r, s)
       | None => (Raised Http404, s)
       end.

(** What is fixed outside the handlers: the database backend, the clock
    ([datetime.date.today()]) and the parser of the form's [DateField]
    (its [to_python], which tries the configured input formats). *)
Record Env := {
  backend : Backend;
  today : date;
  to_python : string → option date
}.

Record Request := {
  method : string;
  user : Caller;
  POST : gmap string string;
  (** the [page] query parameter of the list views, after [int()] *)
  GET_page : option nat
}.

End Http.
Export Http.

(** ** The renewal form *)
Module Forms.

(** Modelled from the spec: [catalog/forms.py] ([RenewBookForm]) is not part
    of the sources at hand.  Section 4.3 of the spec gives its policy: the
    submitted value (a) must parse as a calendar date, (b) must not be in the
    past relative to the current date, (c) must not be more than 4 weeks in
    the future relative to the current date; on a violation the form keeps
    the submitted value and carries an error message. *)
Inductive ValidationError :=
| InvalidDate
| RenewalInPast
| RenewalTooFarAhead.

(** Modelled from the spec: the validation of [RenewBookForm]
    ([catalog/forms.py], not part of the sources at hand), rules (a) to (c)
    of section 4.3 in the order the spec lists them. *)
Definition clean_renewal_date (env : Env) (raw : option string)
  : ValidationError + date :=
  match raw ≫= to_python env with
  | None => inl InvalidDate
  | Some d =>
      if date_lt d (today env) then inl RenewalInPast
      else if timedelta_weeks 4 <? date_sub d (today env)
           then inl RenewalTooFarAhead
           else inr d
  end.

Inductive RenewBookForm :=
| UnboundForm (initial : date)
| BoundForm (data : option string) (cleaned : ValidationError + date).

(** [RenewBookForm(request.POST)] *)
Definition RenewBookForm_bind (env : Env) (post : gmap string string)
  : RenewBookForm :=
  let raw := post !! "renewal_date"%string in
  BoundForm raw (clean_renewal_date env raw).

(** [RenewBookForm(initial={'renewal_date': d})] *)
Definition RenewBookForm_initial (d : date) : RenewBookForm := UnboundForm d.

Definition is_valid (f : RenewBookForm) : bool :=
  match f with
  | BoundForm _ (inr _) => true
  | _ => false
  end.

(** [form.cleaned_data['renewal_date']]; [None] stands for a missing key. *)
Definition cleaned_data (f : RenewBookForm) : option date :=
  match f with
  | BoundForm _ (inr d) => Some d
  | _ => None
  end.

(** [form.errors] *)
Definition errors (f : RenewBookForm) : list ValidationError :=
  match f with
  | BoundForm _ (inl e) => [e]
  | _ => []
  end.

(** The value the rendered widget shows: the submitted text of a bound
    form. *)
Definition displayed_value (f : RenewBookForm) : option string :=
  match f with
  | BoundForm raw _ => raw
  | UnboundForm _ => None
  end.

(** The initial value of an unbound form. *)
Definition initial_value (f : RenewBookForm) : option date :=
  match f with
  | UnboundForm d => Some d
  | BoundForm _ _ => None
  end.

End Forms.
Export Forms.

(** ** The handlers of [catalog/views.py] *)
Module Views.

Record IndexCounters := {
  num_books : Z;
  num_instances : Z;
  num_instances_available : Z;
  num_authors : Z;
  num_genre : Z;
  num_title : Z;
  num_visits : Z
}.

(** The [context] dictionaries handed to the templates. *)
Inductive Context :=
| IndexContext (counters : IndexCounters)
| RenewContext (form : RenewBookForm) (book_instance : BookInstance)
| ListContext (queryset : QuerySet BookInstance)
              (object_list : QuerySet BookInstance).

Inductive Response :=
| HttpResponseRedirect (to : Url)
| render (template_name : string) (context : Context).

Definition Handler := Request → View Response.

(** [redirect_to_login(...)] *)
Definition redirect_to_login : Response := HttpResponseRedirect LOGIN_URL.

(** [@login_required] *)
Definition login_required (view : Handler) : Handler := λ request,
  if is_authenticated (user request) then view request
  else mret redirect_to_login.

(** [@permission_required(perm, raise_exception=...)] *)
Definition permission_required (perm : string) (raise_exception : bool)
  (view : Handler) : Handler := λ request,
  if has_perm (user request) perm then view request
  else if raise_exception then mthrow PermissionDenied
  else mret redirect_to_login.

(** [AccessMixin.handle_no_permission], for a view that leaves
    [raise_exception] at its default [False]. *)
Definition handle_no_permission (raise_exception : bool) : Handler := λ request,
  if raise_exception || is_authenticated (user request)
  then mthrow PermissionDenied
  else mret redirect_to_login.

(** A database read. *)
Definition query {A} (q : Database → A) : View A :=
  λ s, (Returned (q (db s)), s).

(** [index(request)] *)
Definition index (env : Env) : Handler := λ request,
  n_books ← query (λ d, qs_count (objects_all (tbl_book d)));
  n_instances ← query (λ d, qs_count (objects_all (tbl_bookinstance d)));
  n_available ← query (λ d,
    qs_count (qs_filter (status__exact "a") (objects_all (tbl_bookinstance d))));
  n_authors ← query (λ d, qs_count (objects_all (tbl_author d)));
  n_visits ← session_get "num_visits" 0;
  session_set "num_visits" (n_visits + 1);;
  n_genre ← query (λ d, qs_count (objects_all (tbl_genre d)));
  let title := "game of thrones"%string in
  n_title ← query (λ d,
    qs_count (qs_filter (title__contains (backend env) (Str.lower title))
                        (objects_all (tbl_book d))));
  mret (render "index.html"
          (IndexContext {| num_books := n_books;
                           num_instances := n_instances;
                           num_instances_available := n_available;
                           num_authors := n_authors;
                           num_genre := n_genre;
                           num_title := n_title;
                           num_visits := n_visits |})).

(** [MultipleObjectMixin.paginate_queryset] followed by the rendering of a
    [ListView] with [paginate_by = 10]: an invalid page number is a 404. *)
Definition paginate_by : nat := 10.

Definition list_view_get (template_name : string)
  (qs : QuerySet BookInstance) : Handler := λ request,
  match paginator_page paginate_by qs (default 1%nat (GET_page request)) with
  | Some page => mret (render template_name (ListContext qs page))
  | None => mthrow Http404
  end.

(** [LoanedBooksByUserListView.get_queryset] *)
Definition LoanedBooksByUserListView_get_queryset (env : Env) (u : User)
  (d : Database) : QuerySet BookInstance :=
  order_by_due_back (backend env)
    (qs_filter (status__exact "o")
       (qs_filter (borrower__exact u) (objects_all (tbl_bookinstance d)))).

(** [LoanedBooksByUserListView]: [LoginRequiredMixin] in front of the list
    view. *)
Definition LoanedBooksByUserListView (env : Env) : Handler := λ request,
  match user request with
  | AnonymousUser => handle_no_permission false request
  | LoggedIn u =>
      qs ← query (LoanedBooksByUserListView_get_queryset env u);
      list_view_get "catalog/bookinstance_list_borrowed_user.html" qs request
  end.

(** [BorrowedListView.get_queryset] *)
Definition BorrowedListView_get_queryset (env : Env) (d : Database)
  : QuerySet BookInstance :=
  order_by_due_back (backend env)
    (qs_filter (status__exact "o") (objects_all (tbl_bookinstance d))).

(** [BorrowedListView]: [PermissionRequiredMixin] in front of the list view. *)
Definition BorrowedListView (env : Env) : Handler := λ request,
  if has_perm (user request) "catalog.can_mark_returned" then
    qs ← query (BorrowedListView_get_queryset env);
    list_view_get "catalog/borrowed_list.html" qs request
  else handle_no_permission false request.

(** The body of [renew_book_librarian], under its decorators. *)
Definition renew_book_librarian_body (env : Env) (pk : Z) : Handler := λ request,
  book_instance ← get_object_or_404 tbl_bookinstance pk;
  if String.eqb (method request) "POST" then
    let form := RenewBookForm_bind env (POST request) in
    if is_valid form then
      match cleaned_data form with
      | Some renewal_date =>
          let book_instance := set_due_back renewal_date book_instance in
          write_db (save_bookinstance pk book_instance);;
          mret (HttpResponseRedirect (reverse "all-borrowed"))
      | None => mthrow KeyError
      end
    else
      mret (render "catalog/book_renew_librarian.html"
              (RenewContext form book_instance))
  else
    proposed_renewal_date ←
      or_raise OverflowError (date_add (today env) (timedelta_weeks 3));
    let form := RenewBookForm_initial proposed_renewal_date in
    mret (render "catalog/book_renew_librarian.html"
            (RenewContext form book_instance)).

(** [renew_book_librarian(request, pk)] *)
Definition renew_book_librarian (env : Env) (pk : Z) : Handler :=
  login_required
    (permission_required "catalog.can_mark_returned" true
       (renew_book_librarian_body env pk)).

End Views.
Export Views.

(** ** The permission-gated generic views *)
Module AdminViews.

(** [LoginRequiredMixin.dispatch] in front of the next class of the MRO. *)
Definition LoginRequiredMixin (next : Handler) : Handler := λ request,
  if is_authenticated (user request) then next request
  else handle_no_permission false request.

(** [PermissionRequiredMixin.dispatch] with [permission_required = perm]. *)
Definition PermissionRequiredMixin (perm : string) (next : Handler)
  : Handler := λ request,
  if has_perm (user request) perm then next request
  else handle_no_permission false request.

(** The six editing views.  Each class lists [LoginRequiredMixin],
    [PermissionRequiredMixin] and a generic editing view, in that order, with
    [permission_required = 'catalog.can_mark_returned'].  The generic view
    (its model form, its template, its success URL) is Django's and is taken
    as the argument. *)
Definition AuthorCreate (CreateView : Handler) : Handler :=
  LoginRequiredMixin
    (PermissionRequiredMixin "catalog.can_mark_returned" CreateView).

Definition AuthorUpdate (UpdateView : Handler) : Handler :=
  LoginRequiredMixin
    (PermissionRequiredMixin "catalog.can_mark_returned" UpdateView).

Definition AuthorDelete (DeleteView : Handler) : Handler :=
  LoginRequiredMixin
    (PermissionRequiredMixin "catalog.can_mark_returned" DeleteView).

Definition BookCreate (CreateView : Handler) : Handler :=
  LoginRequiredMixin
    (PermissionRequiredMixin "catalog.can_mark_returned" CreateView).

Definition BookUpdate (UpdateView : Handler) : Handler :=
  LoginRequiredMixin
    (PermissionRequiredMixin "catalog.can_mark_returned" UpdateView).

Definition BookDelete (DeleteView : Handler) : Handler :=
  LoginRequiredMixin
    (PermissionRequiredMixin "catalog.can_mark_returned" DeleteView).

(** The three ways the views put a permission check in front of a handler. *)
Inductive Gate :=
| DecoratorGate        (* @login_required @permission_required(.., True) *)
| PermissionMixinGate  (* PermissionRequiredMixin alone *)
| BothMixinsGate.      (* LoginRequiredMixin, PermissionRequiredMixin *)

Definition gated (g : Gate) (perm : string) (next : Handler) : Handler :=
  match g with
  | DecoratorGate => login_required (permission_required perm true next)
  | PermissionMixinGate => PermissionRequiredMixin perm next
  | BothMixinsGate => LoginRequiredMixin (PermissionRequiredMixin perm next)
  end.

End AdminViews.
Export AdminViews.

(** ** Sequences of requests and of pages *)
Module Scenarios.

(** [n] requests in a row through one handler, each on the state the
    previous one left. *)
Fixpoint after_requests (view : Handler) (request : Request) (n : nat)
  (s : State) : State :=
  match n with
  | O => s
  | S k => (view request (after_requests view request k s)).2
  end.

(** The state a successful renewal of [pk] leaves. *)
Definition renewed (pk : Z) (d : date) (bi : BookInstance) (s : State)
  : State :=
  {| db := save_bookinstance pk (set_due_back d bi) (db s);
     session := session s |}.

(** The pages [1..k] of a paginator that exist, in order. *)
Definition pages_upto {R} (per_page : nat) (qs : QuerySet R) (k : nat)
  : list (QuerySet R) :=
  omap (λ i, paginator_page per_page qs (S i)) (seq 0 k).

End Scenarios.
Export Scenarios.

(** ** The counters as the specification words them *)
Module Spec.

(** The number of rows of a table that satisfy [P]. *)
Definition count_rows {R} (P : R → Prop) `{∀ r, Decision (P r)}
  (tbl : gmap Z R) : Z :=
  Z.of_nat (size (filter (λ kr : Z * R, P kr.2) tbl)).

(** "the count of instances with status=available" *)
Definition num_instances_available_spec (d : Database) : Z :=
  count_rows (λ bi, status bi = Available) (tbl_bookinstance d).

(** "the count of books whose title contains "game of thrones"
    case-insensitively" *)
Definition num_title_spec (d : Database) : Z :=
  count_rows (λ b, Str.icontains "game of thrones" (title b) = true)
             (tbl_book d).

End Spec.
Export Spec.

(** ** Concrete data for the examples *)
Module Fixtures.

Definition digit (c : ascii) : option Z :=
  let n := Z.of_nat (nat_of_ascii c) in
  if (48 <=? n) && (n <=? 57) then Some (n - 48) else None.

Fixpoint digits (acc : Z) (s : string) : option Z :=
  match s with
  | EmptyString => Some acc
  | String c r => d ← digit c; digits (acc * 10 + d) r
  end.

(** A [DateField] parser for the input format [%Y-%m-%d] with zero-padded
    fields. *)
Definition parse_iso (s : string) : option date :=
  if (String.length s =? 10)%nat
     && bool_decide (String.get 4 s = Some "-"%char)
     && bool_decide (String.get 7 s = Some "-"%char)
  then y ← digits 0 (substring 0 4 s);
       m ← digits 0 (substring 5 2 s);
       d ← digits 0 (substring 8 2 s);
       ymd2ord y m d
  else None.

(** 2026-11-04 *)
Definition a_today : date := 739924.

Definition env_on (B : Backend) : Env :=
  {| backend := B; today := a_today; to_python := parse_iso |}.

Definition librarian : User :=
  {| user_id := 1; is_active := true; is_superuser := false;
     all_permissions := {["catalog.can_mark_returned"%string]} |}.

Definition member : User :=
  {| user_id := 2; is_active := true; is_superuser := false;
     all_permissions := ∅ |}.

Definition copy_on_loan : BookInstance :=
  {| book := Some 1; imprint := "Bantam, 1996"; due_back := Some (a_today + 3);
     status := OnLoan; borrower := Some 2 |}.

Definition copy_available : BookInstance :=
  {| book := Some 1; imprint := "Bantam, 1996"; due_back := None;
     status := Available; borrower := None |}.

Definition a_game_of_thrones : Book :=
  {| title := "A Game of Thrones"; author := None; summary := "";
     isbn := "9780553103540"; genre := []; language := None |}.

Definition a_db : Database :=
  {| tbl_book := {[ 1 := a_game_of_thrones ]};
     tbl_author := ∅;
     tbl_bookinstance := {[ 10 := copy_on_loan; 11 := copy_available ]};
     tbl_genre := ∅;
     tbl_language := ∅ |}.

Definition a_state : State := {| db := a_db; session := ∅ |}.

Definition post_renewal (c : Caller) (value : string) : Request :=
  {| method := "POST"; user := c;
     POST := {[ "renewal_date"%string := value ]}; GET_page := None |}.

Definition get_request (c : Caller) : Request :=
  {| method := "GET"; user := c; POST := ∅; GET_page := None |}.

End Fixtures.
Export Fixtures.

(** * Properties *)

(** ** The order of [order_by('due_back')] *)
Section due_back_order.
Context (B : Backend).

Lemma null_le_total nf a b : null_le nf a b = true ∨ null_le nf b a = true.
Proof.
  destruct a as [x|], b as [y|], nf; simpl; auto;
    destruct (Z.leb_spec x y); auto; right; apply Z.leb_le; lia.
Qed.

Lemma null_le_trans nf a b c :
  null_le nf a b = true → null_le nf b c = true → null_le nf a c = true.
Proof.
  destruct a as [x|], b as [y|], c as [z|], nf; simpl; try done;
    rewrite !Z.leb_le; lia.
Qed.

Global Instance due_back_le_total : Total (due_back_le B).
Proof.
  intros x y. unfold due_back_le.
  destruct (null_le_total (nulls_first B) (due_back x.2) (due_back y.2)) as [H|H];
    rewrite H; simpl; auto.
Qed.

Global Instance due_back_le_trans : Transitive (due_back_le B).
Proof.
  intros x y z. unfold due_back_le. rewrite !Is_true_true.
  apply null_le_trans.
Qed.

Lemma order_by_due_back_perm qs : order_by_due_back B qs ≡ₚ qs.
Proof. apply merge_sort_Permutation. Qed.

Lemma order_by_due_back_sorted qs :
  StronglySorted (due_back_le B) (order_by_due_back B qs).
Proof. apply StronglySorted_merge_sort; apply _. Qed.

End due_back_order.

(** ** Query-set membership *)

Lemma elem_of_objects_all {R} (tbl : gmap Z R) pk r :
  (pk, r) ∈ objects_all tbl ↔ tbl !! pk = Some r.
Proof. unfold objects_all. apply elem_of_map_to_list. Qed.

Lemma NoDup_objects_all {R} (tbl : gmap Z R) : NoDup (objects_all tbl).
Proof. apply NoDup_map_to_list. Qed.

Lemma elem_of_qs_filter {R} (p : R → bool) (qs : QuerySet R) pk r :
  (pk, r) ∈ qs_filter p qs ↔ (pk, r) ∈ qs ∧ p r = true.
Proof.
  unfold qs_filter. rewrite !list_elem_of_In, filter_In. done.
Qed.

Lemma NoDup_qs_filter {R} (p : R → bool) (qs : QuerySet R) :
  NoDup qs → NoDup (qs_filter p qs).
Proof.
  rewrite !NoDup_ListNoDup. apply List.NoDup_filter.
Qed.

Lemma status__exact_o bi : status__exact "o" bi = true ↔ status bi = OnLoan.
Proof. unfold status__exact. destruct (status bi); simpl; split; done. Qed.

Lemma status__exact_a bi : status__exact "a" bi = true ↔ status bi = Available.
Proof. unfold status__exact. destruct (status bi); simpl; split; done. Qed.

Lemma borrower__exact_true u bi :
  borrower__exact u bi = true ↔ borrower bi = Some (user_id u).
Proof. unfold borrower__exact. apply bool_decide_eq_true. Qed.

(** The first page of a paginator always exists. *)
Lemma paginator_first_page {R} (qs : QuerySet R) :
  paginator_page paginate_by qs 1 = Some (take paginate_by qs).
Proof.
  unfold paginator_page.
  assert ((1 <=? num_pages paginate_by qs)%nat = true) as ->.
  { apply Nat.leb_le. unfold num_pages. lia. }
  simpl. by rewrite drop_0.
Qed.

(** ** The renewal workflow *)

(** A caller holding a permission is logged in. *)
Lemma has_perm_authenticated c perm :
  has_perm c perm = true → is_authenticated c = true.
Proof. by destruct c. Qed.

(** Past both decorators, the handler runs its body. *)
Lemma renew_permitted env pk request s :
  has_perm (user request) "catalog.can_mark_returned" = true →
  renew_book_librarian env pk request s =
  renew_book_librarian_body env pk request s.
Proof.
  intros Hperm. unfold renew_book_librarian, login_required, permission_required.
  by rewrite (has_perm_authenticated _ _ Hperm), Hperm.
Qed.

Lemma clean_renewal_date_in_range env raw d :
  to_python env raw = Some d →
  today env ≤ d → d ≤ today env + 28 →
  clean_renewal_date env (Some raw) = inr d.
Proof.
  intros Hparse Hlo Hhi. unfold clean_renewal_date. simpl. rewrite Hparse.
  unfold date_lt, date_sub, timedelta_weeks.
  destruct (Z.ltb_spec d (today env)); [lia|].
  destruct (Z.ltb_spec (7 * 4) (d - today env)); [lia|done].
Qed.

Lemma clean_renewal_date_out_of_range env raw d :
  to_python env raw = Some d →
  d < today env ∨ today env + 28 < d →
  ∃ e, clean_renewal_date env (Some raw) = inl e.
Proof.
  intros Hparse Hout. unfold clean_renewal_date. simpl. rewrite Hparse.
  unfold date_lt, date_sub, timedelta_weeks.
  destruct (Z.ltb_spec d (today env)); [by eexists|].
  destruct (Z.ltb_spec (7 * 4) (d - today env)); [by eexists|lia].
Qed.

(** C1: for an existing BookInstance, a permitted caller's POST with a date
    that parses, is not before today and is at most 4 weeks (28 days) after
    today succeeds: the response is a redirect to the "all-borrowed" view and
    the stored row is the old row with [due_back] set to exactly the submitted
    date; every other row and the session are as before. *)
Theorem renew_post_in_range_succeeds env pk request s bi raw d :
  has_perm (user request) "catalog.can_mark_returned" = true →
  method request = "POST"%string →
  tbl_bookinstance (db s) !! pk = Some bi →
  POST request !! "renewal_date"%string = Some raw →
  to_python env raw = Some d →
  today env ≤ d → d ≤ today env + 28 →
  ∃ s',
    renew_book_librarian env pk request s =
      (Returned (HttpResponseRedirect (reverse "all-borrowed")), s')
    ∧ due_back <$> tbl_bookinstance (db s') !! pk = Some (Some d)
    ∧ tbl_bookinstance (db s') !! pk = Some (set_due_back d bi)
    ∧ (∀ pk', pk' ≠ pk →
         tbl_bookinstance (db s') !! pk' = tbl_bookinstance (db s) !! pk')
    ∧ tbl_book (db s') = tbl_book (db s)
    ∧ tbl_author (db s') = tbl_author (db s)
    ∧ tbl_genre (db s') = tbl_genre (db s)
    ∧ tbl_language (db s') = tbl_language (db s)
    ∧ session s' = session s.
Proof.
  intros Hperm Hpost Hrow Hraw Hparse Hlo Hhi.
  exists {| db := save_bookinstance pk (set_due_back d bi) (db s);
            session := session s |}.
  split.
  - rewrite renew_permitted by done.
    unfold renew_book_librarian_body, mbind, View_bind, get_object_or_404.
    rewrite Hrow, Hpost. simpl.
    unfold RenewBookForm_bind. rewrite Hraw.
    by rewrite (clean_renewal_date_in_range env raw d).
  - simpl. rewrite lookup_insert_eq. repeat split; try done.
    intros pk' Hne. by rewrite lookup_insert_ne.
Qed.

Lemma renew_post_in_range_succeeds_witness :
  ∃ s',
    renew_book_librarian (env_on sqlite) 10
      (post_renewal (LoggedIn librarian) "2026-11-20") a_state =
      (Returned (HttpResponseRedirect (reverse "all-borrowed")), s')
    ∧ due_back <$> tbl_bookinstance (db s') !! 10 = Some (Some 739940).
Proof.
  destruct (renew_post_in_range_succeeds (env_on sqlite) 10
              (post_renewal (LoggedIn librarian) "2026-11-20") a_state
              copy_on_loan "2026-11-20" 739940)
    as (s' & Hr & Hd & _); try (vm_compute; congruence).
  exists s'. by split.
Defined.

(** Whatever is submitted, a POST whose form does not validate writes
    nothing. *)
Lemma renew_invalid_post_no_mutation env pk request s :
  is_valid (RenewBookForm_bind env (POST request)) = false →
  (renew_book_librarian env pk request s).2 = s.
Proof.
  intros Hinv.
  unfold renew_book_librarian, login_required, permission_required.
  destruct (is_authenticated (user request)); [|done].
  destruct (has_perm (user request) _); [|done].
  unfold renew_book_librarian_body, mbind, View_bind, get_object_or_404.
  destruct (tbl_bookinstance (db s) !! pk); [|done].
  destruct (String.eqb (method request) "POST").
  - by rewrite Hinv.
  - unfold or_raise. by destruct (date_add _ _).
Qed.

(** C2: for an existing BookInstance and a permitted caller, a POST whose
    date is strictly before today or strictly more than 4 weeks (28 days)
    after today fails validation: the handler returns (no exception) the
    renewal template with the bound form, which shows the submitted text and
    carries an error, and the whole state (the row's due_back and every other
    field included) is unchanged. *)
Theorem renew_post_out_of_range_rejected env pk request s bi raw d :
  has_perm (user request) "catalog.can_mark_returned" = true →
  method request = "POST"%string →
  tbl_bookinstance (db s) !! pk = Some bi →
  POST request !! "renewal_date"%string = Some raw →
  to_python env raw = Some d →
  d < today env ∨ today env + 28 < d →
  ∃ form,
    renew_book_librarian env pk request s =
      (Returned (render "catalog/book_renew_librarian.html"
                   (RenewContext form bi)), s)
    ∧ is_valid form = false
    ∧ displayed_value form = Some raw
    ∧ errors form ≠ [].
Proof.
  intros Hperm Hpost Hrow Hraw Hparse Hout.
  destruct (clean_renewal_date_out_of_range env raw d Hparse Hout) as [e He].
  exists (BoundForm (Some raw) (inl e)). split; [|done].
  rewrite renew_permitted by done.
  unfold renew_book_librarian_body, mbind, View_bind, get_object_or_404.
  rewrite Hrow, Hpost. simpl.
  unfold RenewBookForm_bind. by rewrite Hraw, He.
Qed.

Lemma renew_post_out_of_range_rejected_witness :
  ∃ form,
    renew_book_librarian (env_on sqlite) 10
      (post_renewal (LoggedIn librarian) "2026-12-25") a_state =
      (Returned (render "catalog/book_renew_librarian.html"
                   (RenewContext form copy_on_loan)), a_state)
    ∧ is_valid form = false
    ∧ displayed_value form = Some "2026-12-25"%string
    ∧ errors form ≠ [].
Proof.
  apply (renew_post_out_of_range_rejected (env_on sqlite) 10
           (post_renewal (LoggedIn librarian) "2026-12-25") a_state
           copy_on_loan "2026-12-25" 739975); try (vm_compute; congruence).
  right. vm_compute. reflexivity.
Defined.

(** C4, as the code has it: for an instance id with no matching BookInstance
    and a caller holding the "can mark returned" permission, renew raises
    Http404 (NotFound) and changes nothing. *)
Theorem renew_missing_instance_not_found env pk request s :
  has_perm (user request) "catalog.can_mark_returned" = true →
  tbl_bookinstance (db s) !! pk = None →
  renew_book_librarian env pk request s = (Raised Http404, s).
Proof.
  intros Hperm Hrow. rewrite renew_permitted by done.
  unfold renew_book_librarian_body, mbind, View_bind, get_object_or_404.
  by rewrite Hrow.
Qed.

Lemma renew_missing_instance_not_found_witness :
  renew_book_librarian (env_on sqlite) 99
    (get_request (LoggedIn librarian)) a_state = (Raised Http404, a_state).
Proof.
  apply (renew_missing_instance_not_found (env_on sqlite) 99
           (get_request (LoggedIn librarian)) a_state);
    vm_compute; reflexivity.
Defined.

(** C4, as stated, fails: a logged-in caller without the permission who asks
    for an id that matches no BookInstance gets PermissionDenied, not
    Http404. *)
Lemma renew_missing_instance_forbidden_first :
  ¬ (∀ env pk request s,
       tbl_bookinstance (db s) !! pk = None →
       (renew_book_librarian env pk request s).1 = Raised Http404).
Proof.
  intros H.
  specialize (H (env_on sqlite) 99 (get_request (LoggedIn member)) a_state).
  assert (tbl_bookinstance (db a_state) !! 99 = None) as Hnone
    by (vm_compute; reflexivity).
  specialize (H Hnone). vm_compute in H. discriminate H.
Qed.

(** C5: a logged-in caller lacking the "can mark returned" permission gets
    PermissionDenied (Forbidden) from renew, for every instance id (existing
    or not), every method and every submitted date, and the state is
    unchanged: the refusal comes before the look-up and before any write. *)
Theorem renew_without_permission_forbidden env pk request s :
  is_authenticated (user request) = true →
  has_perm (user request) "catalog.can_mark_returned" = false →
  renew_book_librarian env pk request s = (Raised PermissionDenied, s).
Proof.
  intros Hauth Hperm.
  unfold renew_book_librarian, login_required, permission_required.
  by rewrite Hauth, Hperm.
Qed.

Lemma renew_without_permission_forbidden_witness :
  tbl_bookinstance (db a_state) !! 10 = Some copy_on_loan
  ∧ renew_book_librarian (env_on sqlite) 10
      (post_renewal (LoggedIn member) "2026-11-20") a_state =
    (Raised PermissionDenied, a_state).
Proof.
  split; [vm_compute; reflexivity|].
  apply (renew_without_permission_forbidden (env_on sqlite) 10
           (post_renewal (LoggedIn member) "2026-11-20") a_state);
    vm_compute; reflexivity.
Defined.

(** Adding days to a date gives the date that many days later as long as
    that is a date (no later than 9999-12-31), and raises otherwise. *)
Lemma date_add_Some d delta :
  0 < d + delta ≤ MAXORDINAL → date_add d delta = Some (d + delta).
Proof.
  intros [Hlo Hhi]. unfold date_add. cbv zeta.
  apply Z.ltb_lt in Hlo. apply Z.leb_le in Hhi. by rewrite Hlo, Hhi.
Qed.

Lemma date_add_None d delta :
  ¬ (0 < d + delta ≤ MAXORDINAL) → date_add d delta = None.
Proof.
  intros Hout. unfold date_add. cbv zeta.
  destruct (Z.ltb_spec 0 (d + delta)), (Z.leb_spec (d + delta) MAXORDINAL);
    simpl; try done; lia.
Qed.

(** C9: for an existing BookInstance, a permitted caller's request with a
    method other than POST returns the renewal template with an unbound form
    whose initial renewal date is today plus 21 days (3 weeks), together with
    the row as stored; the state is unchanged.  The clock must leave room for
    the sum: today plus 21 days has to be a date, that is, no later than
    9999-12-31 ([MAXORDINAL]); past that the addition raises
    [OverflowError] and nothing is rendered. *)
Theorem renew_get_proposes_three_weeks env pk request s bi :
  has_perm (user request) "catalog.can_mark_returned" = true →
  method request ≠ "POST"%string →
  tbl_bookinstance (db s) !! pk = Some bi →
  0 < today env + 21 ≤ MAXORDINAL →
  renew_book_librarian env pk request s =
    (Returned (render "catalog/book_renew_librarian.html"
                 (RenewContext (RenewBookForm_initial (today env + 21)) bi)),
     s)
  ∧ initial_value (RenewBookForm_initial (today env + 21)) =
    Some (today env + 21).
Proof.
  intros Hperm Hget Hrow Hclock. split; [|done].
  rewrite renew_permitted by done.
  unfold renew_book_librarian_body, mbind, View_bind, get_object_or_404.
  rewrite Hrow. apply String.eqb_neq in Hget. rewrite Hget.
  unfold timedelta_weeks. change (7 * 3) with 21.
  by rewrite (date_add_Some (today env) 21 Hclock).
Qed.

Lemma renew_get_proposes_three_weeks_witness :
  renew_book_librarian (env_on sqlite) 10
    (get_request (LoggedIn librarian)) a_state =
    (Returned (render "catalog/book_renew_librarian.html"
                 (RenewContext (RenewBookForm_initial 739945) copy_on_loan)),
     a_state).
Proof.
  apply (renew_get_proposes_three_weeks (env_on sqlite) 10
           (get_request (LoggedIn librarian)) a_state copy_on_loan).
  - vm_compute. reflexivity.
  - vm_compute. congruence.
  - vm_compute. reflexivity.
  - vm_compute. split; congruence.
Defined.

(** ** The home page *)

(** Counting a filtered [objects.all()] counts the rows of the table that
    pass the filter. *)
Lemma qs_count_filter {R} (p : R → bool) (P : R → Prop)
  `{∀ r, Decision (P r)} (tbl : gmap Z R) :
  (∀ r, p r = true ↔ P r) →
  qs_count (qs_filter p (objects_all tbl)) = count_rows P tbl.
Proof.
  intros Hp. unfold qs_count, count_rows. f_equal.
  rewrite <- length_map_to_list. apply Permutation_length.
  apply NoDup_Permutation.
  - apply NoDup_qs_filter, NoDup_objects_all.
  - apply NoDup_map_to_list.
  - intros [pk r]. rewrite elem_of_qs_filter, elem_of_objects_all.
    rewrite elem_of_map_to_list, map_lookup_filter_Some. simpl.
    rewrite Hp. done.
Qed.

(** What [index] returns and what it leaves in the state. *)
Lemma index_unfold env request s :
  index env request s =
  (Returned (render "index.html" (IndexContext {|
     num_books := qs_count (objects_all (tbl_book (db s)));
     num_instances := qs_count (objects_all (tbl_bookinstance (db s)));
     num_instances_available :=
       qs_count (qs_filter (status__exact "a")
                   (objects_all (tbl_bookinstance (db s))));
     num_authors := qs_count (objects_all (tbl_author (db s)));
     num_genre := qs_count (objects_all (tbl_genre (db s)));
     num_title :=
       qs_count (qs_filter (title__contains (backend env) "game of thrones")
                   (objects_all (tbl_book (db s))));
     num_visits := default 0 (session s !! "num_visits"%string) |})),
   {| db := db s;
      session := <["num_visits"%string :=
                     default 0 (session s !! "num_visits"%string) + 1]>
                   (session s) |}).
Proof. reflexivity. Qed.

(** C8: the home page's [num_instances_available] is the number of
    BookInstance rows whose status is Available in the state the request
    runs on. *)
Theorem index_num_instances_available env request s :
  ∃ counters s',
    index env request s =
      (Returned (render "index.html" (IndexContext counters)), s')
    ∧ num_instances_available counters = num_instances_available_spec (db s).
Proof.
  rewrite index_unfold. do 2 eexists. split; [reflexivity|]. simpl.
  unfold num_instances_available_spec.
  apply qs_count_filter, status__exact_a.
Qed.

(** C10: with n the session's stored [num_visits] (0 when absent), the home
    page shows n and leaves n + 1 in the session; the other session keys and
    the database are unchanged.  A first visit shows 0. *)
Theorem index_shows_visits_before_increment env request s :
  let n := default 0 (session s !! "num_visits"%string) in
  ∃ counters s',
    index env request s =
      (Returned (render "index.html" (IndexContext counters)), s')
    ∧ num_visits counters = n
    ∧ session s' !! "num_visits"%string = Some (n + 1)
    ∧ (∀ k, k ≠ "num_visits"%string → session s' !! k = session s !! k)
    ∧ db s' = db s
    ∧ (session s !! "num_visits"%string = None → num_visits counters = 0).
Proof.
  intros n. rewrite index_unfold. do 2 eexists. split; [reflexivity|]. simpl.
  split; [done|]. split; [by rewrite lookup_insert_eq|].
  split; [by intros k Hk; rewrite lookup_insert_ne|].
  split; [done|]. by intros ->.
Qed.

Lemma index_shows_visits_before_increment_witness :
  ∃ counters s',
    index (env_on sqlite) (get_request AnonymousUser) a_state =
      (Returned (render "index.html" (IndexContext counters)), s')
    ∧ num_visits counters = 0
    ∧ session s' !! "num_visits"%string = Some 1.
Proof.
  destruct (index_shows_visits_before_increment (env_on sqlite)
              (get_request AnonymousUser) a_state)
    as (c & s' & Hr & Hn & Hs & _).
  exists c, s'. split; [exact Hr|]. split; [exact Hn|exact Hs].
Defined.

(** On a backend whose LIKE ignores case (SQLite), the home page's
    [num_title] is the case-insensitive count. *)
Lemma index_num_title_case_insensitive_backend env request s :
  like_case_sensitive (backend env) = false →
  ∃ counters s',
    index env request s =
      (Returned (render "index.html" (IndexContext counters)), s')
    ∧ num_title counters = num_title_spec (db s).
Proof.
  intros HB. rewrite index_unfold. do 2 eexists. split; [reflexivity|]. simpl.
  unfold num_title_spec. apply qs_count_filter. intros b.
  unfold title__contains. by rewrite HB.
Qed.

(** C3, at the failing input: on a backend whose LIKE is case-sensitive (the
    documented meaning of [contains]), a catalog whose only book is titled
    "A Game of Thrones" gets [num_title] 0 from the home page, while one book
    contains "game of thrones" case-insensitively. *)
Theorem index_num_title_misses_capitalised_title :
  ∃ counters s',
    index (env_on postgresql) (get_request AnonymousUser) a_state =
      (Returned (render "index.html" (IndexContext counters)), s')
    ∧ title <$> tbl_book a_db !! 1 = Some "A Game of Thrones"%string
    ∧ num_title counters = 0
    ∧ num_title_spec (db a_state) = 1.
Proof.
  rewrite index_unfold. do 2 eexists. split; [reflexivity|].
  split; [vm_compute; reflexivity|]. split; vm_compute; reflexivity.
Qed.

(** ** The borrowed lists *)

(** Between rows that both have a date, the order is the order of dates. *)
Lemma due_back_le_dates B x y a b :
  due_back x.2 = Some a → due_back y.2 = Some b →
  due_back_le B x y ↔ a ≤ b.
Proof.
  intros Ha Hb. unfold due_back_le. rewrite Ha, Hb. simpl.
  rewrite Is_true_true. apply Z.leb_le.
Qed.

Lemma list_view_get_rendered template_name qs request s t qs' page s' :
  list_view_get template_name qs request s =
    (Returned (render t (ListContext qs' page)), s') →
  qs' = qs ∧ s' = s.
Proof.
  unfold list_view_get, mret, View_ret, mthrow, View_throw.
  destruct (paginator_page _ _ _); intros Heq; simplify_eq; by split.
Qed.

Lemma list_view_get_first_page template_name qs request s :
  GET_page request = None →
  list_view_get template_name qs request s =
    (Returned (render template_name (ListContext qs (take 10 qs))), s).
Proof.
  intros Hp. unfold list_view_get. rewrite Hp. simpl.
  by rewrite paginator_first_page.
Qed.

Lemma BorrowedListView_get_queryset_spec env d :
  let qs := BorrowedListView_get_queryset env d in
  (∀ pk bi, (pk, bi) ∈ qs ↔
     tbl_bookinstance d !! pk = Some bi ∧ status bi = OnLoan)
  ∧ NoDup qs
  ∧ StronglySorted (due_back_le (backend env)) qs.
Proof.
  unfold BorrowedListView_get_queryset. simpl. split; [|split].
  - intros pk bi. rewrite order_by_due_back_perm.
    rewrite elem_of_qs_filter, elem_of_objects_all, status__exact_o. done.
  - rewrite order_by_due_back_perm.
    apply NoDup_qs_filter, NoDup_objects_all.
  - apply order_by_due_back_sorted.
Qed.






(** * Further properties of the handlers *)

(** ** The permission gates *)

(** What a gate of any of the three kinds does with a request. *)
Lemma gated_outcome g perm next request s :
  gated g perm next request s =
    if has_perm (user request) perm then next request s
    else if is_authenticated (user request)
         then (Raised PermissionDenied, s)
         else (Returned redirect_to_login, s).
Proof.
  destruct g; simpl;
    unfold login_required, permission_required, LoginRequiredMixin,
      PermissionRequiredMixin, handle_no_permission.
  - destruct (has_perm (user request) perm) eqn:Hp.
    + by rewrite (has_perm_authenticated _ _ Hp).
    + by destruct (is_authenticated (user request)).
  - destruct (has_perm (user request) perm); [done|].
    simpl. by destruct (is_authenticated (user request)).
  - destruct (has_perm (user request) perm) eqn:Hp.
    + by rewrite (has_perm_authenticated _ _ Hp).
    + by destruct (is_authenticated (user request)).
Qed.

(** However a view puts the permission check in front of its handler (the two
    decorators of [renew_book_librarian], [PermissionRequiredMixin] alone as
    in [BorrowedListView], or both mixins as in the editing views), the gate
    answers the same: the handler runs for a caller holding the permission, a
    logged-in caller without it gets PermissionDenied, an anonymous caller is
    redirected to the login page, and a refused request leaves the state as
    it was. *)
Theorem permission_gates_agree g g' perm next request s :
  gated g perm next request s = gated g' perm next request s
  ∧ gated g perm next request s =
      if has_perm (user request) perm then next request s
      else if is_authenticated (user request)
           then (Raised PermissionDenied, s)
           else (Returned redirect_to_login, s).
Proof.
  split.
  - by rewrite (gated_outcome g), (gated_outcome g').
  - apply gated_outcome.
Qed.

Lemma renew_book_librarian_gated env pk :
  renew_book_librarian env pk =
  gated DecoratorGate "catalog.can_mark_returned"
    (renew_book_librarian_body env pk).
Proof. reflexivity. Qed.

Lemma BorrowedListView_gated env request s :
  BorrowedListView env request s =
  gated PermissionMixinGate "catalog.can_mark_returned"
    (λ request,
       qs ← query (BorrowedListView_get_queryset env);
       list_view_get "catalog/borrowed_list.html" qs request) request s.
Proof. reflexivity. Qed.

Lemma editing_view_is_gated view generic :
  view ∈ [AuthorCreate; AuthorUpdate; AuthorDelete;
          BookCreate; BookUpdate; BookDelete] →
  view generic = gated BothMixinsGate "catalog.can_mark_returned" generic.
Proof.
  intros Hview.
  repeat (apply elem_of_cons in Hview as [->|Hview]; [reflexivity|]).
  by apply elem_of_nil in Hview.
Qed.

(** Each of the six editing views (create, update and delete of Author and
    of Book) runs its generic view only for a caller holding
    "catalog.can_mark_returned"; a logged-in caller without it gets
    PermissionDenied, an anonymous caller the login redirect, and in both
    cases nothing is written, whatever the generic view would have done. *)
Theorem editing_views_gated view generic request s :
  view ∈ [AuthorCreate; AuthorUpdate; AuthorDelete;
          BookCreate; BookUpdate; BookDelete] →
  view generic request s =
    if has_perm (user request) "catalog.can_mark_returned"
    then generic request s
    else if is_authenticated (user request)
         then (Raised PermissionDenied, s)
         else (Returned redirect_to_login, s).
Proof.
  intros Hview. rewrite (editing_view_is_gated view generic Hview).
  apply gated_outcome.
Qed.

Lemma editing_views_gated_witness :
  BookDelete (λ _ s, (Returned (HttpResponseRedirect (reverse "books")),
                      {| db := {| tbl_book := ∅;
                                  tbl_author := tbl_author (db s);
                                  tbl_bookinstance := tbl_bookinstance (db s);
                                  tbl_genre := tbl_genre (db s);
                                  tbl_language := tbl_language (db s) |};
                         session := session s |}))
    (get_request (LoggedIn member)) a_state =
  (Raised PermissionDenied, a_state).
Proof.
  rewrite (editing_views_gated BookDelete); [reflexivity|].
  rewrite !elem_of_cons. tauto.
Defined.

(** An anonymous caller gets the login redirect from every gated view of the
    file (renew, for every id, method and submitted data; both borrowed
    lists; the six editing views), and the state is unchanged. *)
Theorem anonymous_caller_redirected env pk generic request s :
  is_authenticated (user request) = false →
  renew_book_librarian env pk request s = (Returned redirect_to_login, s)
  ∧ LoanedBooksByUserListView env request s = (Returned redirect_to_login, s)
  ∧ BorrowedListView env request s = (Returned redirect_to_login, s)
  ∧ (∀ view,
       view ∈ [AuthorCreate; AuthorUpdate; AuthorDelete;
               BookCreate; BookUpdate; BookDelete] →
       view generic request s = (Returned redirect_to_login, s)).
Proof.
  intros Ha.
  assert (∀ perm, has_perm (user request) perm = false) as Hp.
  { intros perm. destruct (has_perm (user request) perm) eqn:E; [|done].
    apply has_perm_authenticated in E. congruence. }
  split; [|split; [|split]].
  - rewrite renew_book_librarian_gated, gated_outcome.
    by rewrite Hp, Ha.
  - unfold LoanedBooksByUserListView, handle_no_permission.
    destruct (user request); [done|discriminate Ha].
  - rewrite BorrowedListView_gated, gated_outcome.
    by rewrite Hp, Ha.
  - intros view Hview.
    rewrite (editing_view_is_gated view generic Hview), gated_outcome.
    by rewrite Hp, Ha.
Qed.

Lemma anonymous_caller_redirected_witness :
  renew_book_librarian (env_on sqlite) 99
    (post_renewal AnonymousUser "2026-11-20") a_state =
  (Returned redirect_to_login, a_state).
Proof.
  apply (anonymous_caller_redirected (env_on sqlite) 99
           (λ _ s, (Raised KeyError, s))
           (post_renewal AnonymousUser "2026-11-20") a_state).
  reflexivity.
Defined.

(** ** What renew writes, and when *)

Lemma cleaned_data_is_valid f d : cleaned_data f = Some d → is_valid f = true.
Proof. by destruct f as [|? [|]]. Qed.

Lemma is_valid_cleaned_data f :
  is_valid f = true → ∃ d, cleaned_data f = Some d.
Proof. destruct f as [|? [|]]; try done. by eexists. Qed.

Lemma renew_valid_post env pk request s bi d :
  has_perm (user request) "catalog.can_mark_returned" = true →
  method request = "POST"%string →
  tbl_bookinstance (db s) !! pk = Some bi →
  cleaned_data (RenewBookForm_bind env (POST request)) = Some d →
  renew_book_librarian env pk request s =
    (Returned (HttpResponseRedirect (reverse "all-borrowed")),
     renewed pk d bi s).
Proof.
  intros Hperm Hpost Hrow Hd. rewrite renew_permitted by done.
  unfold renew_book_librarian_body, mbind, View_bind, get_object_or_404.
  rewrite Hrow, Hpost. cbv zeta.
  by rewrite (cleaned_data_is_valid _ _ Hd), Hd.
Qed.

(** A display request of a permitted caller for an existing row: the form
    with today plus 21 days when that is a date, [OverflowError] when it is
    not; the state is unchanged either way. *)
Lemma renew_display env pk request s bi :
  has_perm (user request) "catalog.can_mark_returned" = true →
  method request ≠ "POST"%string →
  tbl_bookinstance (db s) !! pk = Some bi →
  renew_book_librarian env pk request s =
    (match date_add (today env) 21 with
     | Some proposed =>
         Returned (render "catalog/book_renew_librarian.html"
                     (RenewContext (RenewBookForm_initial proposed) bi))
     | None => Raised OverflowError
     end, s).
Proof.
  intros Hperm Hget Hrow. rewrite renew_permitted by done.
  unfold renew_book_librarian_body, mbind, View_bind, get_object_or_404.
  rewrite Hrow. apply String.eqb_neq in Hget. rewrite Hget.
  unfold timedelta_weeks. change (7 * 3) with 21.
  by destruct (date_add (today env) 21).
Qed.

(** Past the last day that leaves room for three more weeks (9999-12-10), a
    display request of a permitted caller for an existing row does not
    render: the date addition raises [OverflowError], which the handler does
    not catch; the state is unchanged. *)
Theorem renew_display_overflow env pk request s bi :
  has_perm (user request) "catalog.can_mark_returned" = true →
  method request ≠ "POST"%string →
  tbl_bookinstance (db s) !! pk = Some bi →
  MAXORDINAL - 21 < today env →
  renew_book_librarian env pk request s = (Raised OverflowError, s).
Proof.
  intros Hperm Hget Hrow Hlate.
  rewrite (renew_display env pk request s bi) by done.
  rewrite date_add_None; [done|]. lia.
Qed.

Lemma renew_display_overflow_witness :
  renew_book_librarian
    {| backend := sqlite; today := 3652040; to_python := parse_iso |} 10
    (get_request (LoggedIn librarian)) a_state =
  (Raised OverflowError, a_state).
Proof.
  apply (renew_display_overflow
           {| backend := sqlite; today := 3652040; to_python := parse_iso |}
           10 (get_request (LoggedIn librarian)) a_state copy_on_loan).
  - vm_compute. reflexivity.
  - vm_compute. congruence.
  - vm_compute. reflexivity.
  - vm_compute. reflexivity.
Defined.

(** Every run of renew either leaves the state alone and does not answer
    with the redirect to "all-borrowed", or is a successful renewal. *)
Lemma renew_cases env pk request s :
  ((renew_book_librarian env pk request s).2 = s
   ∧ (renew_book_librarian env pk request s).1 ≠
     Returned (HttpResponseRedirect (reverse "all-borrowed"))
   ∧ (has_perm (user request) "catalog.can_mark_returned" = false
      ∨ method request ≠ "POST"%string
      ∨ tbl_bookinstance (db s) !! pk = None
      ∨ is_valid (RenewBookForm_bind env (POST request)) = false))
  ∨ (∃ bi d,
       has_perm (user request) "catalog.can_mark_returned" = true
       ∧ method request = "POST"%string
       ∧ tbl_bookinstance (db s) !! pk = Some bi
       ∧ cleaned_data (RenewBookForm_bind env (POST request)) = Some d
       ∧ renew_book_librarian env pk request s =
           (Returned (HttpResponseRedirect (reverse "all-borrowed")),
            renewed pk d bi s)).
Proof.
  destruct (has_perm (user request) "catalog.can_mark_returned") eqn:Hperm.
  2:{ left. rewrite renew_book_librarian_gated, gated_outcome, Hperm.
      destruct (is_authenticated (user request)); simpl; auto. }
  destruct (tbl_bookinstance (db s) !! pk) as [bi|] eqn:Hrow.
  2:{ left. rewrite renew_permitted by done.
      unfold renew_book_librarian_body, mbind, View_bind, get_object_or_404.
      rewrite Hrow. simpl. auto 6. }
  destruct (String.eqb_spec (method request) "POST") as [Hpost|Hget].
  2:{ left. rewrite (renew_display env pk request s bi) by done.
      destruct (date_add (today env) 21); simpl; auto. }
  destruct (is_valid (RenewBookForm_bind env (POST request))) eqn:Hvalid.
  - right. destruct (is_valid_cleaned_data _ Hvalid) as [d Hd].
    exists bi, d. repeat split; try done. by apply renew_valid_post.
  - left. rewrite renew_permitted by done.
    unfold renew_book_librarian_body, mbind, View_bind, get_object_or_404.
    rewrite Hrow, Hpost. cbv zeta. rewrite Hvalid. simpl. auto 6.
Qed.

(** Renew touches nothing but the due_back of the addressed row: for every
    caller, id, method and submitted data, the session and the Book, Author,
    Genre and Language tables are as before, the BookInstance table has the
    same primary keys, every other row is as before, and the addressed row
    keeps its book, imprint, status and borrower. *)
Theorem renew_only_touches_due_back env pk request s :
  let s' := (renew_book_librarian env pk request s).2 in
  session s' = session s
  ∧ tbl_book (db s') = tbl_book (db s)
  ∧ tbl_author (db s') = tbl_author (db s)
  ∧ tbl_genre (db s') = tbl_genre (db s)
  ∧ tbl_language (db s') = tbl_language (db s)
  ∧ dom (tbl_bookinstance (db s')) = dom (tbl_bookinstance (db s))
  ∧ (∀ k, k ≠ pk →
       tbl_bookinstance (db s') !! k = tbl_bookinstance (db s) !! k)
  ∧ (∀ bi', tbl_bookinstance (db s') !! pk = Some bi' →
       ∃ bi, tbl_bookinstance (db s) !! pk = Some bi
             ∧ book bi' = book bi ∧ imprint bi' = imprint bi
             ∧ status bi' = status bi ∧ borrower bi' = borrower bi).
Proof.
  intros s'. subst s'.
  destruct (renew_cases env pk request s)
    as [(Hs & _) | (bi & d & _ & _ & Hrow & _ & Hr)].
  - rewrite Hs. repeat split; try done. intros bi' Hbi'. by exists bi'.
  - rewrite Hr. simpl. repeat split; try done.
    + apply dom_insert_lookup_L. by rewrite Hrow.
    + intros k Hk. by rewrite lookup_insert_ne.
    + intros bi'. rewrite lookup_insert_eq. intros [= <-]. by exists bi.
Qed.

(** Renew answers with the redirect to "all-borrowed" exactly when the caller
    holds the permission, the method is POST, the id matches a BookInstance
    and the submitted form validates; in every other case the state is left
    as it was. *)
Theorem renew_redirects_iff env pk request s :
  ((renew_book_librarian env pk request s).1 =
     Returned (HttpResponseRedirect (reverse "all-borrowed"))
   ↔ has_perm (user request) "catalog.can_mark_returned" = true
     ∧ method request = "POST"%string
     ∧ is_Some (tbl_bookinstance (db s) !! pk)
     ∧ is_valid (RenewBookForm_bind env (POST request)) = true)
  ∧ ((renew_book_librarian env pk request s).1 ≠
       Returned (HttpResponseRedirect (reverse "all-borrowed")) →
     (renew_book_librarian env pk request s).2 = s).
Proof.
  destruct (renew_cases env pk request s)
    as [(Hs & Hne & Hwhy) | (bi & d & Hperm & Hpost & Hrow & Hd & Hr)].
  - split; [|done]. split; [done|].
    intros (Hperm & Hpost & [bi Hrow] & Hvalid).
    destruct Hwhy as [H|[H|[H|H]]]; congruence.
  - split.
    + rewrite Hr. split; [|done]. intros _.
      split; [done|]. split; [done|]. split; [by rewrite Hrow|].
      by apply (cleaned_data_is_valid _ d).
    + rewrite Hr. simpl. done.
Qed.

Lemma renew_redirects_iff_witness :
  (renew_book_librarian (env_on sqlite) 10
     (post_renewal (LoggedIn librarian) "not a date") a_state).2 = a_state.
Proof.
  apply (renew_redirects_iff (env_on sqlite) 10
           (post_renewal (LoggedIn librarian) "not a date") a_state).
  vm_compute. discriminate.
Defined.

(** ** Renewals in sequence *)

Lemma renewed_lookup pk d bi s :
  tbl_bookinstance (db (renewed pk d bi s)) !! pk = Some (set_due_back d bi).
Proof. simpl. apply lookup_insert_eq. Qed.

(** Two accepted renewals of the same instance, one after the other: the
    second answers and leaves the state exactly as if the first had not
    happened (the later date wins; repeating a renewal changes nothing
    more). *)
Theorem renew_twice_last_wins env1 env2 pk request1 request2 s bi d1 d2 :
  has_perm (user request1) "catalog.can_mark_returned" = true →
  has_perm (user request2) "catalog.can_mark_returned" = true →
  method request1 = "POST"%string →
  method request2 = "POST"%string →
  tbl_bookinstance (db s) !! pk = Some bi →
  cleaned_data (RenewBookForm_bind env1 (POST request1)) = Some d1 →
  cleaned_data (RenewBookForm_bind env2 (POST request2)) = Some d2 →
  renew_book_librarian env2 pk request2
    (renew_book_librarian env1 pk request1 s).2 =
  renew_book_librarian env2 pk request2 s.
Proof.
  intros Hp1 Hp2 Hm1 Hm2 Hrow Hd1 Hd2.
  rewrite (renew_valid_post env1 pk request1 s bi d1) by done. simpl.
  rewrite (renew_valid_post env2 pk request2 _ (set_due_back d1 bi) d2)
    by (done || apply renewed_lookup).
  rewrite (renew_valid_post env2 pk request2 s bi d2) by done.
  f_equal. unfold renewed, save_bookinstance. simpl.
  by rewrite insert_insert_eq.
Qed.

Lemma renew_twice_last_wins_witness :
  renew_book_librarian (env_on sqlite) 10
    (post_renewal (LoggedIn librarian) "2026-11-20")
    (renew_book_librarian (env_on sqlite) 10
       (post_renewal (LoggedIn librarian) "2026-11-10") a_state).2 =
  renew_book_librarian (env_on sqlite) 10
    (post_renewal (LoggedIn librarian) "2026-11-20") a_state.
Proof.
  apply (renew_twice_last_wins (env_on sqlite) (env_on sqlite) 10
           (post_renewal (LoggedIn librarian) "2026-11-10")
           (post_renewal (LoggedIn librarian) "2026-11-20")
           a_state copy_on_loan 739930 739940);
    vm_compute; reflexivity.
Defined.

(** Accepted renewals of two different instances commute: either order
    leaves the same state. *)
Theorem renew_different_instances_commute
  env1 env2 pk1 pk2 request1 request2 s bi1 bi2 d1 d2 :
  pk1 ≠ pk2 →
  has_perm (user request1) "catalog.can_mark_returned" = true →
  has_perm (user request2) "catalog.can_mark_returned" = true →
  method request1 = "POST"%string →
  method request2 = "POST"%string →
  tbl_bookinstance (db s) !! pk1 = Some bi1 →
  tbl_bookinstance (db s) !! pk2 = Some bi2 →
  cleaned_data (RenewBookForm_bind env1 (POST request1)) = Some d1 →
  cleaned_data (RenewBookForm_bind env2 (POST request2)) = Some d2 →
  (renew_book_librarian env2 pk2 request2
     (renew_book_librarian env1 pk1 request1 s).2).2 =
  (renew_book_librarian env1 pk1 request1
     (renew_book_librarian env2 pk2 request2 s).2).2.
Proof.
  intros Hne Hp1 Hp2 Hm1 Hm2 Hr1 Hr2 Hd1 Hd2.
  rewrite (renew_valid_post env1 pk1 request1 s bi1 d1) by done.
  rewrite (renew_valid_post env2 pk2 request2 s bi2 d2) by done. simpl.
  rewrite (renew_valid_post env2 pk2 request2 _ bi2 d2); try done.
  2:{ simpl. by rewrite lookup_insert_ne. }
  rewrite (renew_valid_post env1 pk1 request1 _ bi1 d1); try done.
  2:{ simpl. by rewrite lookup_insert_ne. }
  unfold renewed, save_bookinstance. simpl.
  by rewrite insert_insert_ne.
Qed.

Lemma renew_different_instances_commute_witness :
  (renew_book_librarian (env_on sqlite) 11
     (post_renewal (LoggedIn librarian) "2026-11-20")
     (renew_book_librarian (env_on sqlite) 10
        (post_renewal (LoggedIn librarian) "2026-11-10") a_state).2).2 =
  (renew_book_librarian (env_on sqlite) 10
     (post_renewal (LoggedIn librarian) "2026-11-10")
     (renew_book_librarian (env_on sqlite) 11
        (post_renewal (LoggedIn librarian) "2026-11-20") a_state).2).2.
Proof.
  apply (renew_different_instances_commute (env_on sqlite) (env_on sqlite)
           10 11
           (post_renewal (LoggedIn librarian) "2026-11-10")
           (post_renewal (LoggedIn librarian) "2026-11-20")
           a_state copy_on_loan copy_available 739930 739940);
    vm_compute; congruence.
Defined.

(** After an accepted renewal the new date is what the views then show: the
    renewal page of the instance (asked for while today plus 21 days is still
    a date) carries the row with the new due_back, and the "all borrowed"
    query set lists the instance (with the new date) if and only if it is on
    loan, next to exactly the other rows it listed before. *)
Theorem renew_then_read_back env pk request s bi d :
  has_perm (user request) "catalog.can_mark_returned" = true →
  method request = "POST"%string →
  tbl_bookinstance (db s) !! pk = Some bi →
  cleaned_data (RenewBookForm_bind env (POST request)) = Some d →
  let s' := (renew_book_librarian env pk request s).2 in
  (∀ env' request',
     has_perm (user request') "catalog.can_mark_returned" = true →
     method request' ≠ "POST"%string →
     0 < today env' + 21 ≤ MAXORDINAL →
     ∃ form,
       renew_book_librarian env' pk request' s' =
         (Returned (render "catalog/book_renew_librarian.html"
                      (RenewContext form (set_due_back d bi))), s'))
  ∧ (∀ env' k r,
       (k, r) ∈ BorrowedListView_get_queryset env' (db s') ↔
       (k = pk ∧ r = set_due_back d bi ∧ status bi = OnLoan)
       ∨ (k ≠ pk ∧ (k, r) ∈ BorrowedListView_get_queryset env' (db s))).
Proof.
  intros Hperm Hpost Hrow Hd s'. subst s'.
  rewrite (renew_valid_post env pk request s bi d) by done. simpl. split.
  - intros env' request' Hperm' Hget Hclock. eexists.
    rewrite (renew_display env' pk request' _ (set_due_back d bi) Hperm' Hget)
      by apply renewed_lookup.
    by rewrite (date_add_Some _ _ Hclock).
  - intros env' k r.
    destruct (BorrowedListView_get_queryset_spec env' (db (renewed pk d bi s)))
      as (Hin' & _).
    destruct (BorrowedListView_get_queryset_spec env' (db s)) as (Hin & _).
    rewrite Hin', Hin. simpl.
    destruct (decide (k = pk)) as [->|Hne].
    + rewrite lookup_insert_eq. split.
      * intros [[= <-] Hst]. left. done.
      * intros [(_ & -> & Hst)|(Hne & _)]; [done|congruence].
    + rewrite lookup_insert_ne by done. split.
      * intros H. by right.
      * intros [(-> & _)|(_ & H)]; [congruence|done].
Qed.

Lemma renew_then_read_back_witness :
  (10, set_due_back 739940 copy_on_loan) ∈
  BorrowedListView_get_queryset (env_on postgresql)
    (db (renew_book_librarian (env_on sqlite) 10
           (post_renewal (LoggedIn librarian) "2026-11-20") a_state).2).
Proof.
  destruct (renew_then_read_back (env_on sqlite) 10
              (post_renewal (LoggedIn librarian) "2026-11-20") a_state
              copy_on_loan 739940) as [_ Hlist];
    try (vm_compute; reflexivity).
  apply Hlist. left. repeat split.
Defined.

(** ** The home page's counters *)

Lemma qs_count_objects_all {R} (tbl : gmap Z R) :
  qs_count (objects_all tbl) = Z.of_nat (size tbl).
Proof. unfold qs_count, objects_all. by rewrite length_map_to_list. Qed.

Lemma qs_count_filter_le {R} (p : R → bool) (qs : QuerySet R) :
  0 ≤ qs_count (qs_filter p qs) ≤ qs_count qs.
Proof.
  unfold qs_count, qs_filter. split; [lia|].
  apply Nat2Z.inj_le. apply List.filter_length_le.
Qed.

Lemma qs_count_filter_mono {R} (p q : R → bool) (qs : QuerySet R) :
  (∀ r, p r = true → q r = true) →
  qs_count (qs_filter p qs) ≤ qs_count (qs_filter q qs).
Proof.
  intros Hpq. unfold qs_count, qs_filter. apply Nat2Z.inj_le.
  induction qs as [|[k r] qs IH]; simpl; [done|].
  destruct (p r) eqn:Hp.
  - rewrite (Hpq r Hp). simpl. lia.
  - destruct (q r); simpl; lia.
Qed.

(** The home page never fails and needs no login: for every caller it renders
    [index.html]; its four plain counters are the sizes of the Book,
    BookInstance, Author and Genre tables, and the two filtered counters lie
    between 0 and the size of the table they filter. *)
Theorem index_counters_totals_and_bounds env request s :
  ∃ counters s',
    index env request s =
      (Returned (render "index.html" (IndexContext counters)), s')
    ∧ num_books counters = Z.of_nat (size (tbl_book (db s)))
    ∧ num_instances counters = Z.of_nat (size (tbl_bookinstance (db s)))
    ∧ num_authors counters = Z.of_nat (size (tbl_author (db s)))
    ∧ num_genre counters = Z.of_nat (size (tbl_genre (db s)))
    ∧ 0 ≤ num_instances_available counters ≤ num_instances counters
    ∧ 0 ≤ num_title counters ≤ num_books counters.
Proof.
  rewrite index_unfold. do 2 eexists. split; [reflexivity|]. simpl.
  rewrite <- !qs_count_objects_all.
  repeat split; try done; apply qs_count_filter_le.
Qed.

(** ** The title filter *)

Lemma startswith_lower needle hay :
  Str.startswith needle hay = true →
  Str.startswith (Str.lower needle) (Str.lower hay) = true.
Proof.
  revert hay. induction needle as [|a n IH]; intros [|b h]; simpl; try done.
  intros [Hab Hn]%andb_prop. apply Ascii.eqb_eq in Hab as ->.
  by rewrite Ascii.eqb_refl, IH.
Qed.

Lemma contains_lower needle hay :
  Str.contains needle hay = true →
  Str.contains (Str.lower needle) (Str.lower hay) = true.
Proof.
  induction hay as [|b h IH]; simpl.
  - rewrite !orb_false_r. intros H.
    by apply (startswith_lower needle "") in H.
  - intros [H|H]%orb_prop.
    + apply (startswith_lower needle (String b h)) in H. simpl in H.
      by rewrite H.
    + rewrite (IH H). apply orb_true_r.
Qed.

(** Whatever the backend's LIKE does with case, the home page's [num_title]
    counts only books whose title contains "game of thrones"
    case-insensitively: it never exceeds that count.  On a case-sensitive
    backend it is the number of titles that contain the lower-case text
    exactly. *)
Theorem index_num_title_at_most_insensitive_count env request s :
  ∃ counters s',
    index env request s =
      (Returned (render "index.html" (IndexContext counters)), s')
    ∧ num_title counters ≤ num_title_spec (db s)
    ∧ (like_case_sensitive (backend env) = true →
       num_title counters =
       count_rows (λ b, Str.contains "game of thrones" (title b) = true)
                  (tbl_book (db s))).
Proof.
  rewrite index_unfold. do 2 eexists. split; [reflexivity|]. simpl. split.
  - unfold num_title_spec.
    rewrite <- (qs_count_filter
                  (λ b, Str.icontains "game of thrones" (title b))) by done.
    apply qs_count_filter_mono. intros b. unfold title__contains.
    destruct (like_case_sensitive (backend env)); [|done].
    apply (contains_lower "game of thrones").
  - intros HB. apply qs_count_filter. intros b.
    unfold title__contains. by rewrite HB.
Qed.

Lemma index_num_title_at_most_insensitive_count_witness :
  ∃ counters s',
    index (env_on postgresql) (get_request AnonymousUser) a_state =
      (Returned (render "index.html" (IndexContext counters)), s')
    ∧ num_title counters =
      count_rows (λ b, Str.contains "game of thrones" (title b) = true)
                 (tbl_book (db a_state)).
Proof.
  destruct (index_num_title_at_most_insensitive_count (env_on postgresql)
              (get_request AnonymousUser) a_state)
    as (c & s' & Hr & _ & Hcs).
  exists c, s'. split; [exact Hr|]. apply Hcs. reflexivity.
Defined.

(** ** The visit counter over several requests *)

Lemma after_requests_index env request n s :
  db (after_requests (index env) request n s) = db s
  ∧ default 0 (session (after_requests (index env) request n s)
               !! "num_visits"%string) =
    default 0 (session s !! "num_visits"%string) + Z.of_nat n
  ∧ (∀ k, k ≠ "num_visits"%string →
       session (after_requests (index env) request n s) !! k =
       session s !! k).
Proof.
  induction n as [|n (IHdb & IHn & IHk)]; [simpl; repeat split; lia|].
  cbn [after_requests]. rewrite index_unfold. cbn [snd db session].
  split; [done|]. split.
  - rewrite lookup_insert_eq. simpl. rewrite IHn. lia.
  - intros k Hk. rewrite lookup_insert_ne by done. by apply IHk.
Qed.

(** The visit counter counts the caller's visits: after [n] requests of the
    home page the session holds the starting count plus [n], the next request
    displays that number, and neither the other session keys nor the database
    have changed. *)
Theorem index_counts_visits env request n s :
  let s_n := after_requests (index env) request n s in
  let n0 := default 0 (session s !! "num_visits"%string) in
  db s_n = db s
  ∧ (∀ k, k ≠ "num_visits"%string → session s_n !! k = session s !! k)
  ∧ (n ≠ 0%nat → session s_n !! "num_visits"%string = Some (n0 + Z.of_nat n))
  ∧ ∃ counters s',
      index env request s_n =
        (Returned (render "index.html" (IndexContext counters)), s')
      ∧ num_visits counters = n0 + Z.of_nat n.
Proof.
  intros s_n n0. subst s_n n0.
  destruct (after_requests_index env request n s) as (Hdb & Hn & Hk).
  split; [done|]. split; [done|]. split.
  - destruct n as [|n]; [done|]. intros _.
    destruct (after_requests_index env request n s) as (_ & Hn' & _).
    cbn [after_requests]. rewrite index_unfold. cbn [snd session].
    rewrite lookup_insert_eq, Hn'. f_equal. lia.
  - rewrite index_unfold. do 2 eexists. split; [reflexivity|]. simpl.
    exact Hn.
Qed.

Lemma index_counts_visits_witness :
  session (after_requests (index (env_on sqlite))
             (get_request AnonymousUser) 3 a_state) !! "num_visits"%string =
  Some 3.
Proof.
  apply (index_counts_visits (env_on sqlite) (get_request AnonymousUser)
           3 a_state).
  discriminate.
Defined.

(** ** The two borrowed lists against each other *)

Lemma LoanedBooksByUserListView_get_queryset_elem env u d pk bi :
  (pk, bi) ∈ LoanedBooksByUserListView_get_queryset env u d ↔
  tbl_bookinstance d !! pk = Some bi
  ∧ borrower bi = Some (user_id u) ∧ status bi = OnLoan.
Proof.
  unfold LoanedBooksByUserListView_get_queryset.
  rewrite order_by_due_back_perm.
  rewrite !elem_of_qs_filter, elem_of_objects_all.
  rewrite status__exact_o, borrower__exact_true. tauto.
Qed.

Lemma LoanedBooksByUserListView_get_queryset_length env u d :
  (length (LoanedBooksByUserListView_get_queryset env u d) ≤
   length (BorrowedListView_get_queryset env d))%nat.
Proof.
  unfold LoanedBooksByUserListView_get_queryset, BorrowedListView_get_queryset.
  rewrite !order_by_due_back_perm. unfold qs_filter.
  generalize (objects_all (tbl_bookinstance d)). intros l.
  induction l as [|[k r] l IH]; simpl; [done|].
  destruct (borrower__exact u r); simpl;
    destruct (status__exact "o" r); simpl; lia.
Qed.

(** A user's "my borrowed" query set is the part of the "all borrowed" query
    set whose borrower is that user: same rows, never more of them, and the
    query sets of two users with different ids share no row. *)
Theorem my_borrowed_is_my_part_of_all_borrowed env u v d :
  (∀ pk bi,
     (pk, bi) ∈ LoanedBooksByUserListView_get_queryset env u d ↔
     (pk, bi) ∈ BorrowedListView_get_queryset env d
     ∧ borrower bi = Some (user_id u))
  ∧ (length (LoanedBooksByUserListView_get_queryset env u d) ≤
     length (BorrowedListView_get_queryset env d))%nat
  ∧ (user_id u ≠ user_id v →
     ∀ kr, kr ∈ LoanedBooksByUserListView_get_queryset env u d →
           kr ∉ LoanedBooksByUserListView_get_queryset env v d).
Proof.
  destruct (BorrowedListView_get_queryset_spec env d) as (Hall & _).
  split; [|split].
  - intros pk bi.
    rewrite LoanedBooksByUserListView_get_queryset_elem, Hall. tauto.
  - apply LoanedBooksByUserListView_get_queryset_length.
  - intros Hne [pk bi].
    rewrite !LoanedBooksByUserListView_get_queryset_elem.
    intros (_ & Hu & _) (_ & Hv & _). congruence.
Qed.

Lemma my_borrowed_is_my_part_of_all_borrowed_witness :
  (10, copy_on_loan) ∉
  LoanedBooksByUserListView_get_queryset (env_on sqlite) librarian a_db.
Proof.
  apply (my_borrowed_is_my_part_of_all_borrowed (env_on sqlite)
           member librarian a_db).
  - vm_compute. discriminate.
  - apply LoanedBooksByUserListView_get_queryset_elem.
    vm_compute. repeat split.
Defined.

(** ** Pagination of the list views *)

Lemma num_pages_bounds {R} (qs : QuerySet R) :
  let k := num_pages paginate_by qs in
  (1 ≤ k ∧ length qs ≤ k * 10
   ∧ (qs ≠ [] → (k - 1) * 10 < length qs))%nat.
Proof.
  intros k. subst k. unfold num_pages, paginate_by.
  pose proof (Nat.div_mod_eq (length qs + 10 - 1) 10) as Hdm.
  pose proof (Nat.mod_upper_bound (length qs + 10 - 1) 10) as Hmod.
  assert (qs ≠ [] → 1 ≤ length qs)%nat as Hpos.
  { destruct qs; [done|]. simpl. lia. }
  specialize (Hmod ltac:(lia)).
  set (q := ((length qs + 10 - 1) `div` 10)%nat) in *.
  set (m := ((length qs + 10 - 1) `mod` 10)%nat) in *.
  clearbody q m. split; [lia|]. split; [lia|].
  intros Hne. specialize (Hpos Hne). lia.
Qed.

Lemma paginator_page_Some {R} (qs : QuerySet R) n :
  (1 ≤ n ≤ num_pages paginate_by qs)%nat →
  paginator_page paginate_by qs n =
  Some (take 10 (drop ((n - 1) * 10) qs)).
Proof.
  intros [H1 H2]. unfold paginator_page.
  apply Nat.leb_le in H1, H2. by rewrite H1, H2.
Qed.

Lemma paginator_page_None {R} (qs : QuerySet R) n :
  paginator_page paginate_by qs n = None ↔
  (n = 0 ∨ num_pages paginate_by qs < n)%nat.
Proof.
  unfold paginator_page.
  destruct (Nat.leb_spec 1 n), (Nat.leb_spec n (num_pages paginate_by qs));
    simpl; split; try done; lia.
Qed.

Lemma pages_upto_concat {R} (qs : QuerySet R) j :
  (j ≤ num_pages paginate_by qs)%nat →
  length (pages_upto paginate_by qs j) = j
  ∧ concat (pages_upto paginate_by qs j) = take (j * 10) qs.
Proof.
  unfold pages_upto. induction j as [|j IH]; intros Hj.
  - simpl. by rewrite take_0.
  - destruct IH as [IHl IHc]; [lia|].
    rewrite seq_S, omap_app. simpl.
    rewrite (paginator_page_Some qs (S j)) by lia. simpl.
    rewrite Nat.sub_0_r, length_app, concat_app, IHl, IHc. simpl.
    rewrite app_nil_r. split; [lia|].
    rewrite take_take_drop. f_equal. lia.
Qed.

(** The pages of a list view (ten rows a page) cut the query set into
    consecutive pieces: there is always a page 1, page numbers 0 and beyond
    the last page do not exist, every page has at most ten rows and every
    page before the last exactly ten, a page is empty only when the query set
    is, and the pages in order put together give back the query set. *)
Theorem paginator_pages_partition {R} (qs : QuerySet R) :
  let k := num_pages paginate_by qs in
  (1 ≤ k)%nat
  ∧ (∀ n, paginator_page paginate_by qs n = None ↔ (n = 0 ∨ k < n)%nat)
  ∧ (∀ n page,
       paginator_page paginate_by qs n = Some page →
       (length page ≤ 10)%nat
       ∧ ((n < k)%nat → length page = 10%nat)
       ∧ (page = [] → qs = []))
  ∧ length (pages_upto paginate_by qs k) = k
  ∧ concat (pages_upto paginate_by qs k) = qs.
Proof.
  intros k. destruct (num_pages_bounds qs) as (Hk1 & Hlen & Hlast).
  fold k in Hk1, Hlen, Hlast.
  split; [done|]. split; [apply paginator_page_None|]. split.
  - intros n page Hpage.
    assert (1 ≤ n ≤ k)%nat as Hn.
    { destruct (decide (1 ≤ n ≤ k)%nat) as [|Hout]; [done|].
      assert (paginator_page paginate_by qs n = None) as Hnone
        by (apply paginator_page_None; lia).
      congruence. }
    rewrite paginator_page_Some in Hpage by done.
    injection Hpage as <-. rewrite length_take, length_drop.
    split; [lia|]. split.
    + intros Hlt. destruct (decide (qs = [])) as [->|Hne].
      { assert (k = 1%nat) as Hk by reflexivity. lia. }
      specialize (Hlast Hne). lia.
    + intros Hempty. destruct (decide (qs = [])) as [|Hne]; [done|].
      specialize (Hlast Hne).
      apply (f_equal length) in Hempty.
      rewrite length_take, length_drop in Hempty. cbn [length] in Hempty.
      lia.
  - destruct (pages_upto_concat qs k) as [Hl Hc]; [fold k; lia|].
    split; [done|]. rewrite Hc. apply take_ge. lia.
Qed.

Lemma paginator_pages_partition_witness :
  paginator_page paginate_by
    (BorrowedListView_get_queryset (env_on sqlite) a_db) 2 = None.
Proof.
  apply (paginator_pages_partition
           (BorrowedListView_get_queryset (env_on sqlite) a_db)).
  right. vm_compute. lia.
Defined.

Lemma list_view_get_page template_name qs request s :
  let n := default 1%nat (GET_page request) in
  list_view_get template_name qs request s =
    if decide (1 ≤ n ≤ num_pages paginate_by qs)%nat
    then (Returned (render template_name
                      (ListContext qs (take 10 (drop ((n - 1) * 10) qs)))), s)
    else (Raised Http404, s).
Proof.
  intros n. unfold list_view_get. fold n. case_decide as Hn.
  - by rewrite paginator_page_Some.
  - assert (paginator_page paginate_by qs n = None) as ->; [|done].
    apply paginator_page_None. lia.
Qed.


